(** * Kleinanzeige-Creator: the media-to-text pipeline

    A shallow embedding of [src/transcribe_audio.py] and of the classes
    [VideoProcessor] and [VideoApp] of [src/main.py], and the properties of
    the pipeline proved about it.

    The Python code talks to collaborators whose code is not part of the
    repository's sources: the frame and audio extractors, the speech-to-text
    and chat endpoints of the OpenAI client, [langdetect.detect] and the
    streamlit widgets.  They are modelled as oracles gathered in a record
    [Env]; every oracle receives the number of events recorded so far, so its
    answer may change from one call to the next.  The pipeline itself is
    written in a state-and-exception monad over the file system and a trace
    of calls.

    The file system is taken to work for the paths the program fixes itself:
    the directories made with [os.makedirs] exist afterwards, and a text
    written to an artifact file is stored (texts are taken to be encodable).
    Storing the upload, whose path depends on the name the browser sent, may
    fail. *)

From Stdlib Require Import String Ascii List QArith.
From stdpp Require Import base option strings gmap list.
Import ListNotations.
Open Scope string_scope.

(** ** Python values and exceptions *)

(** The values that flow through the pipeline.  [transcribe] returns either a
    [str] or the empty list literal, [detect_language] a [str] or [None]. *)
Inductive value : Type :=
  | VStr (s : string)
  | VEmptyList
  | VNone.

(** [str(v)], as used by [str.format]. *)
Definition py_str (v : value) : string :=
  match v with
  | VStr s => s
  | VEmptyList => "[]"
  | VNone => "None"
  end.

(** Truth value of a Python object in a condition. *)
Definition truthy (v : value) : bool :=
  match v with
  | VStr "" => false
  | VStr _ => true
  | VEmptyList => false
  | VNone => false
  end.

(** [Optional[str]] as a Python value. *)
Definition of_optional (o : option string) : value :=
  match o with
  | Some s => VStr s
  | None => VNone
  end.

(** An exception object: its class and its message.  Only subclasses of
    [Exception] are modelled (asynchronous signals such as
    [KeyboardInterrupt] are out of scope), so [except Exception] and a bare
    [except] catch the same things here. *)
Record exn : Type := Exn { exn_class : string; exn_msg : string }.

Inductive outcome (A : Type) : Type :=
  | Returns (a : A)
  | Raises (e : exn).
Arguments Returns {A} a.
Arguments Raises {A} e.

(** ** Requests sent to the OpenAI client *)

Record chat_message : Type := Message { role : string; content : value }.

(** Keyword arguments of [client.chat.completions.create]. *)
Record chat_request : Type := ChatRequest {
  chat_model : string;
  messages : list chat_message;
  temperature : Q
}.

(** Keyword arguments of [client.audio.transcriptions.create]; [file] is the
    content of the audio file opened in binary mode. *)
Record whisper_request : Type := WhisperRequest {
  whisper_model : string;
  file : string;
  response_format : string;
  language : string;
  whisper_prompt : string
}.

(** The object returned by the transcription endpoint: [text_attr] is [None]
    when the object has no attribute [text]. *)
Record transcription : Type := Transcription { text_attr : option string }.

(** ** The trace *)

(** Functions of the repository whose entry is recorded (call-count
    instrumentation). *)
Inductive method : Type :=
  | m_transcribe
  | m_process_video
  | m_generate_description
  | m_detect_language
  | m_translate_text
  | m_save_transcripts
  | m_save_description.

(** One event per entry into a function of the repository and one per call to
    a collaborator, the latter with its outcome.  Output-only calls (logging,
    [print], streamlit spinners and display widgets) change neither the
    control flow nor the artifacts and are not recorded. *)
Inductive event : Type :=
  | EvCall (m : method) (args : list value)
  | EvExtractFrames (video dir : string) (frame_interval : nat) (r : outcome unit)
  | EvExtractAudio (video out : string) (r : outcome (option string))
  | EvWhisper (req : whisper_request) (r : outcome transcription)
  | EvDetect (text : value) (r : outcome string)
  | EvChat (req : chat_request) (r : outcome (option string)).

(** ** The environment *)

(** The collaborators.  The first argument of each oracle is the number of
    events recorded before the call.
    - [extract_frames] is how the frame extractor ends, and [frame_files]
      the images (file name and bytes) it left in its output directory by
      then;
    - [extract_audio] returns the bytes it wrote to its output path, or
      [None] when it returned without writing;
    - [chat] answers with [message.content] of the first choice, which the
      client declares optional: [None] is a completion without content;
    - [open_wb] is the answer of the file system to opening a path for
      binary writing. *)
Record Env : Type := {
  extract_frames : nat -> string -> string -> nat -> outcome unit;
  frame_files : nat -> string -> string -> nat -> list (string * string);
  extract_audio : nat -> string -> string -> outcome (option string);
  whisper : nat -> whisper_request -> outcome transcription;
  detect : nat -> value -> outcome string;
  chat : nat -> chat_request -> outcome (option string);
  open_wb : nat -> string -> outcome unit
}.

(** ** State and monad *)

(** The file system (path to content) and the trace, newest event first. *)
Record state : Type := State {
  files : gmap string string;
  trace : list event
}.

(** A state with the given files and nothing recorded yet. *)
Definition fresh (fs : gmap string string) : state :=
  {| files := fs; trace := [] |}.

(** The events of a state in the order they happened. *)
Definition history (st : state) : list event := rev (trace st).

Definition tick (st : state) : nat := length (trace st).

Definition M (A : Type) : Type := state -> outcome A * state.

Definition ret {A} (a : A) : M A := fun st => (Returns a, st).

Definition raise {A} (e : exn) : M A := fun st => (Raises e, st).

Definition bind {A B} (m : M A) (k : A -> M B) : M B :=
  fun st =>
    match m st with
    | (Returns a, st') => k a st'
    | (Raises e, st') => (Raises e, st')
    end.

(** [try: body except Exception as e: handler e]: the effects of [body] up to
    the exception stay. *)
Definition try_except {A} (body : M A) (handler : exn -> M A) : M A :=
  fun st =>
    match body st with
    | (Returns a, st') => (Returns a, st')
    | (Raises e, st') => handler e st'
    end.

(** stdpp's monad notations [x ← m; k] and [m;; k] are used for [M]. *)
#[global] Instance M_ret : MRet M := @ret.
#[global] Instance M_bind : MBind M := fun A B k m => bind m k.

Definition record (e : event) : M unit :=
  fun st => (Returns tt, {| files := files st; trace := e :: trace st |}).

(** Calls a collaborator: asks the oracle, records the call with its outcome
    and returns or raises accordingly. *)
Definition external {A} (ask : nat -> outcome A) (ev : outcome A -> event) : M A :=
  fun st =>
    let r := ask (tick st) in
    (r, {| files := files st; trace := ev r :: trace st |}).

Definition read_file (path : string) : M (option string) :=
  fun st => (Returns (files st !! path), st).

Definition put_file (path content : string) : M unit :=
  fun st => (Returns tt, {| files := <[path := content]> (files st); trace := trace st |}).

(** The files of [frames] stored under [dir]. *)
Definition put_frames (dir : string) (frames : list (string * string))
    (fs : gmap string string) : gmap string string :=
  foldr (fun frame m => <[dir +:+ fst frame := snd frame]> m) fs frames.

(** [extract_frames(video, dir, frame_interval=interval)]: the images it
    wrote are in the directory however the call ends. *)
Definition run_extract_frames (env : Env) (video dir : string) (interval : nat) : M unit :=
  fun st =>
    let r := extract_frames env (tick st) video dir interval in
    (r, {| files := put_frames dir (frame_files env (tick st) video dir interval) (files st);
           trace := EvExtractFrames video dir interval r :: trace st |}).

(** [open(path, "wb")], as the file system answers it. *)
Definition open_write (env : Env) (path : string) : M unit :=
  fun st => (open_wb env (tick st) path, st).

Definition TypeError (msg : string) : exn := Exn "TypeError" msg.
Definition FileNotFoundError (msg : string) : exn := Exn "FileNotFoundError" msg.
Definition ValueError (msg : string) : exn := Exn "ValueError" msg.

(** [with open(path, 'w', encoding="utf-8") as f: f.write(v)]: opening
    truncates the file, and [write] accepts a [str] only. *)
Definition write_text (path : string) (v : value) : M unit :=
  put_file path "";;
  match v with
  | VStr s => put_file path s
  | VEmptyList => raise (TypeError "write() argument must be str, not list")
  | VNone => raise (TypeError "write() argument must be str, not None")
  end.

#[global] Instance value_eq_dec : EqDecision value.
Proof. solve_decision. Defined.

(** ** Observations on a history *)

Definition method_eqb (m1 m2 : method) : bool :=
  match m1, m2 with
  | m_transcribe, m_transcribe
  | m_process_video, m_process_video
  | m_generate_description, m_generate_description
  | m_detect_language, m_detect_language
  | m_translate_text, m_translate_text
  | m_save_transcripts, m_save_transcripts
  | m_save_description, m_save_description => true
  | _, _ => false
  end.

(** The argument lists of the entries into [m], in the order they happened. *)
Fixpoint calls_to (m : method) (h : list event) : list (list value) :=
  match h with
  | [] => []
  | EvCall m' args :: h' =>
      if method_eqb m' m then args :: calls_to m h' else calls_to m h'
  | _ :: h' => calls_to m h'
  end.

(** The part of a history that precedes the first entry into [m]. *)
Fixpoint before (m : method) (h : list event) : list event :=
  match h with
  | [] => []
  | EvCall m' args :: h' =>
      if method_eqb m' m then [] else EvCall m' args :: before m h'
  | e :: h' => e :: before m h'
  end.

(** The part of a history from the first entry into [m] on. *)
Fixpoint since (m : method) (h : list event) : list event :=
  match h with
  | [] => []
  | EvCall m' args :: h' =>
      if method_eqb m' m then EvCall m' args :: h' else since m h'
  | _ :: h' => since m h'
  end.

(** The requests sent to the chat endpoint, in order. *)
Fixpoint chat_requests (h : list event) : list chat_request :=
  match h with
  | [] => []
  | EvChat req _ :: h' => req :: chat_requests h'
  | _ :: h' => chat_requests h'
  end.

(** The calls to the language detector with their outcome, in order. *)
Fixpoint detections (h : list event) : list (value * outcome string) :=
  match h with
  | [] => []
  | EvDetect text r :: h' => (text, r) :: detections h'
  | _ :: h' => detections h'
  end.

(** ** [src/transcribe_audio.py] *)

(** The module body, run once when the module is imported: it reads the key
    from the process environment and raises when [not api_key], that is when
    the variable is absent or empty.  On success the module holds the client
    built from the key. *)
Definition import_transcribe_audio (environ : gmap string string) : outcome string :=
  match environ !! "OPENAI_API_KEY" with
  | None => Raises (ValueError "API key is missing. Set OPENAI_API_KEY as an environment variable.")
  | Some "" => Raises (ValueError "API key is missing. Set OPENAI_API_KEY as an environment variable.")
  | Some api_key => Returns api_key
  end.

Definition transcription_request (audio : string) : whisper_request :=
  {| whisper_model := "whisper-1";
     file := audio;
     response_format := "json";
     language := "en";
     whisper_prompt := "Please describe this product in detail including: 1. Product name and type 2. Brand or manufacturer 3. Key features and specifications 4. Condition 5. Age or usage period 6. Included accessories 7. Reason for selling 8. Price expectation. Format the description in complete sentences suitable for an online marketplace listing." |}.

(** [transcribe(audio_path)].  Both fallbacks return the list literal, as
    the source does. *)
Definition transcribe (env : Env) (audio_path : string) : M value :=
  record (EvCall m_transcribe [VStr audio_path]);;
  try_except
    (audio ← read_file audio_path;
     match audio with
     | None => raise (FileNotFoundError ("Audio file not found: " +:+ audio_path))
     | Some bytes =>
         let req := transcription_request bytes in
         transcription ← external (fun n => whisper env n req) (EvWhisper req);
         match text_attr transcription with
         | Some text => ret (VStr text)
         | None => ret VEmptyList
         end
     end)
    (fun _ => ret VEmptyList).

(** ** [class VideoProcessor] of [src/main.py] *)

Record VideoProcessor : Type := {
  video_path : string;
  frames_dir : string;
  audio_path : string;
  transcripts_path : string;
  description_path : string
}.

(** [VideoProcessor.__init__]; the directories it creates are not files and
    leave the file map as it is. *)
Definition VideoProcessor_init (path : string) : VideoProcessor :=
  {| video_path := path;
     frames_dir := "outputs/frames/";
     audio_path := "outputs/audio/audio.mp3";
     transcripts_path := "outputs/transcripts/transcript.txt";
     description_path := "outputs/description/description.txt" |}.

Definition nl : string := String (ascii_of_nat 10) EmptyString.

Definition indent : string := "            ".

(** The text of [prompt] before and after the placeholder [{transcript}]. *)
Definition prompt_head : string :=
  nl +:+
  indent +:+ "Create a concise product description in English based on this video transcript." +:+ nl +:+
  indent +:+ "Format the description as line-by-line bullet points:" +:+ nl +:+
  indent +:+ "- Product name and type" +:+ nl +:+
  indent +:+ "- Key features (one per line)" +:+ nl +:+
  indent +:+ "- Condition" +:+ nl +:+
  indent +:+ "- Age suitability (if mentioned)" +:+ nl +:+
  indent +:+ "- Price (if mentioned)" +:+ nl +:+
  indent +:+ nl +:+
  indent +:+ "Keep it brief and factual. Use simple language. Only include information from the transcript." +:+ nl +:+
  indent +:+ "Start each line with a hyphen and space." +:+ nl +:+
  indent +:+ nl +:+
  indent +:+ "Transcript:" +:+ nl +:+
  indent.

Definition prompt_tail : string := nl +:+ indent.

(** [prompt.format(transcript=transcript)]. *)
Definition prompt_format (transcript : value) : string :=
  prompt_head +:+ py_str transcript +:+ prompt_tail.

Definition generation_request (transcript : value) : chat_request :=
  {| chat_model := "gpt-4";
     messages := [Message "user" (VStr (prompt_format transcript))];
     temperature := 7 # 10 |}.

Definition translation_request (text : value) (target_lang : string) : chat_request :=
  {| chat_model := "gpt-4";
     messages :=
       [Message "system"
          (VStr ("Translate the following text to " +:+ target_lang +:+ ". Keep the meaning accurate."));
        Message "user" text];
     temperature := 3 # 10 |}.

(** [client = OpenAI(); response = client.chat.completions.create(...);
    response.choices[0].message.content]: one call to the chat oracle, whose
    failure stands for a failure of any of the three steps; the content is
    handed on as it is, a text or [None]. *)
Definition chat_completion (env : Env) (req : chat_request) : M value :=
  content ← external (fun n => chat env n req) (EvChat req);
  ret (of_optional content).

(** [VideoProcessor.translate_text]. *)
Definition translate_text (env : Env) (text : value) (target_lang : string) : M value :=
  record (EvCall m_translate_text [text; VStr target_lang]);;
  try_except
    (chat_completion env (translation_request text target_lang))
    (fun _ => ret text).

(** [VideoProcessor.detect_language]. *)
Definition detect_language (env : Env) (text : value) : M value :=
  record (EvCall m_detect_language [text]);;
  try_except
    (code ← external (fun n => detect env n text) (EvDetect text);
     ret (VStr code))
    (fun _ => ret VNone).

(** [VideoProcessor.generate_description]; the handler logs and re-raises. *)
Definition generate_description (env : Env) (transcript : value) (target_lang : string) : M value :=
  record (EvCall m_generate_description [transcript; VStr target_lang]);;
  try_except
    (description ← chat_completion env (generation_request transcript);
     if bool_decide (target_lang ≠ "en")
     then translate_text env description target_lang
     else ret description)
    (fun e => raise e).

(** [VideoProcessor._save_transcripts]. *)
Definition _save_transcripts (self : VideoProcessor) (transcript : value) : M unit :=
  record (EvCall m_save_transcripts [transcript]);;
  write_text (transcripts_path self) transcript.

(** [VideoProcessor._save_description]. *)
Definition _save_description (self : VideoProcessor) (description : value) : M unit :=
  record (EvCall m_save_description [description]);;
  write_text (description_path self) description.

(** [VideoProcessor.process_video]; the handler logs and re-raises. *)
Definition process_video (env : Env) (self : VideoProcessor) (target_lang : string)
  : M (value * value) :=
  record (EvCall m_process_video [VStr target_lang]);;
  try_except
    (run_extract_frames env (video_path self) (frames_dir self) 60;;
     written ← external (fun n => extract_audio env n (video_path self) (audio_path self))
       (EvExtractAudio (video_path self) (audio_path self));
     match written with
     | Some bytes => put_file (audio_path self) bytes
     | None => ret tt
     end;;
     transcript ← transcribe env (audio_path self);
     detected_lang ← detect_language env transcript;
     transcript ←
       (if truthy detected_lang && bool_decide (detected_lang ≠ VStr target_lang)
        then translate_text env transcript target_lang
        else ret transcript);
     _save_transcripts self transcript;;
     description ← generate_description env transcript target_lang;
     _save_description self description;;
     ret (transcript, description))
    (fun e => raise e).

(** ** [class VideoApp] of [src/main.py] *)

(** [self.target_languages], in insertion order. *)
Definition target_languages : list (string * string) :=
  [("English", "en"); ("German", "de"); ("French", "fr");
   ("Spanish", "es"); ("Italian", "it")].

(** What the user did in the browser: the uploaded file (name and bytes), the
    position chosen in the select box and whether the button was pressed. *)
Record UI : Type := {
  uploaded_file : option (string * string);
  selected : nat;
  button : bool
}.

(** [st.selectbox(label, options)]: the option at the chosen position, the
    first one when nothing valid was chosen. *)
Definition selectbox (ui : UI) (options : list string) : string :=
  nth (selected ui) options (hd "" options).

Definition starts_with_slash (s : string) : bool :=
  match s with
  | String c _ => Ascii.eqb c "/"
  | "" => false
  end.

Fixpoint ends_with_slash (s : string) : bool :=
  match s with
  | "" => false
  | String c "" => Ascii.eqb c "/"
  | String _ s' => ends_with_slash s'
  end.

(** [os.path.join(a, b)] on POSIX: an absolute [b] replaces [a]. *)
Definition os_path_join (a b : string) : string :=
  if starts_with_slash b then b
  else if String.eqb a "" || ends_with_slash a then a +:+ b
  else a +:+ "/" +:+ b.

(** [VideoApp._upload_video]: the temporary directory is made, then the
    file is opened and written; a failure to open it (a name with a
    directory part that does not exist, a path that is a directory)
    propagates. *)
Definition _upload_video (env : Env) (ui : UI) : M (option string) :=
  match uploaded_file ui with
  | Some (name, bytes) =>
      let temp_dir := "temp_uploads" in
      let file_path := os_path_join temp_dir name in
      open_write env file_path;;
      put_file file_path bytes;;
      ret (Some file_path)
  | None => ret None
  end.

(** [VideoApp.run]; the upload is stored before the [try] and its failure
    leaves [run].  The widgets and the constructor of the processor, which
    only makes the fixed output directories, are taken to work. *)
Definition run (env : Env) (ui : UI) : M unit :=
  uploaded ← _upload_video env ui;
  match uploaded with
  | None => ret tt
  | Some path =>
      let target_lang := selectbox ui (map fst target_languages) in
      let processor := VideoProcessor_init path in
      if button ui
      then try_except (process_video env processor target_lang;; ret tt)
                      (fun _ => ret tt)
      else ret tt
  end.

(** The script [main.py]: its imports run first ([from transcribe_audio
    import transcribe] executes the body of that module), then the
    [__main__] block builds the app and runs it. *)
Definition main_py (env : Env) (environ : gmap string string) (ui : UI) : M unit :=
  (fun st => (import_transcribe_audio environ, st));;
  run env ui.

(** ** The answers of the language detector *)

Definition code_char (c : ascii) : bool :=
  let n := nat_of_ascii c in
  (Nat.leb 97 n && Nat.leb n 122) || Nat.eqb n 45.

Fixpoint code_chars (s : string) : bool :=
  match s with
  | "" => true
  | String c s' => code_char c && code_chars s'
  end.

(** The form of what [langdetect.detect], a library outside the repository,
    returns: an ISO-like language code ("en", "de", "zh-cn"), not empty and
    made of lower-case letters and hyphens. *)
Definition is_language_code (s : string) : bool :=
  match s with
  | "" => false
  | _ => code_chars s
  end.

(** ** Sample environments *)

(** [langdetect.detect] on the samples: English for text, an exception on
    the empty string and on anything that is not a string. *)
Definition sample_detect (v : value) : outcome string :=
  match v with
  | VStr "" => Raises (Exn "LangDetectException" "No features in text.")
  | VStr _ => Returns "en"
  | _ => Raises (TypeError "expected string or bytes-like object")
  end.

(** Every collaborator works; the speech is English. *)
Definition env_ok : Env :=
  {| extract_frames := fun _ _ _ _ => Returns tt;
     frame_files := fun _ _ _ _ => [("frame_0000.jpg", "JFIF")];
     extract_audio := fun _ _ _ => Returns (Some "RIFF");
     whisper := fun _ _ => Returns (Transcription (Some "This is a used bicycle, good condition, $50"));
     detect := fun _ v => sample_detect v;
     chat := fun _ _ => Returns (Some "- Bicycle");
     open_wb := fun _ _ => Returns tt |}.

(** The transcription endpoint cannot be reached. *)
Definition env_whisper_down : Env :=
  {| extract_frames := fun _ _ _ _ => Returns tt;
     frame_files := fun _ _ _ _ => [("frame_0000.jpg", "JFIF")];
     extract_audio := fun _ _ _ => Returns (Some "RIFF");
     whisper := fun _ _ => Raises (Exn "APIConnectionError" "Connection error.");
     detect := fun _ v => sample_detect v;
     chat := fun _ _ => Returns (Some "- Bicycle");
     open_wb := fun _ _ => Returns tt |}.

(** The audio holds no speech: the transcription is the empty text. *)
Definition env_silent : Env :=
  {| extract_frames := fun _ _ _ _ => Returns tt;
     frame_files := fun _ _ _ _ => [("frame_0000.jpg", "JFIF")];
     extract_audio := fun _ _ _ => Returns (Some "RIFF");
     whisper := fun _ _ => Returns (Transcription (Some ""));
     detect := fun _ v => sample_detect v;
     chat := fun _ _ => Returns (Some "- Product: not mentioned");
     open_wb := fun _ _ => Returns tt |}.

(** The chat endpoint rejects every request. *)
Definition env_chat_down : Env :=
  {| extract_frames := fun _ _ _ _ => Returns tt;
     frame_files := fun _ _ _ _ => [("frame_0000.jpg", "JFIF")];
     extract_audio := fun _ _ _ => Returns (Some "RIFF");
     whisper := fun _ _ => Returns (Transcription (Some "This is a used bicycle, good condition, $50"));
     detect := fun _ v => sample_detect v;
     chat := fun _ _ => Raises (Exn "RateLimitError" "Rate limit reached.");
     open_wb := fun _ _ => Returns tt |}.

(** The transcription endpoint answers with an object without [text]. *)
Definition env_no_text : Env :=
  {| extract_frames := fun _ _ _ _ => Returns tt;
     frame_files := fun _ _ _ _ => [("frame_0000.jpg", "JFIF")];
     extract_audio := fun _ _ _ => Returns (Some "RIFF");
     whisper := fun _ _ => Returns (Transcription None);
     detect := fun _ v => sample_detect v;
     chat := fun _ _ => Returns (Some "- Bicycle");
     open_wb := fun _ _ => Returns tt |}.

Definition sample_ui : UI :=
  {| uploaded_file := Some ("bike.mp4", "ftypisom"); selected := 1; button := true |}.

(** The sample runs of the pipeline, each from an empty file system. *)
Definition run_ok_de : outcome (value * value) * state :=
  process_video env_ok (VideoProcessor_init "bike.mp4") "de" (fresh ∅).

Definition run_whisper_down : outcome (value * value) * state :=
  process_video env_whisper_down (VideoProcessor_init "bike.mp4") "en" (fresh ∅).

Definition run_silent : outcome (value * value) * state :=
  process_video env_silent (VideoProcessor_init "bike.mp4") "en" (fresh ∅).

Definition run_chat_down : outcome (value * value) * state :=
  process_video env_chat_down (VideoProcessor_init "bike.mp4") "en" (fresh ∅).

(** The user uploads [bike.mp4], picks the second option and presses the
    button. *)
Definition run_app_ok : outcome unit * state :=
  run env_ok sample_ui (fresh ∅).

(** ** Further observations and samples *)

(** The functions of the repository entered, in order. *)
Fixpoint entries (h : list event) : list method :=
  match h with
  | [] => []
  | EvCall m _ :: h' => m :: entries h'
  | _ :: h' => entries h'
  end.

(** The requests sent to the transcription endpoint, in order. *)
Fixpoint whisper_requests (h : list event) : list whisper_request :=
  match h with
  | [] => []
  | EvWhisper req _ :: h' => req :: whisper_requests h'
  | _ :: h' => whisper_requests h'
  end.

(** The order in which [process_video] goes through its stages;
    [translate_text] is the one optional step and is left out. *)
Definition stage_order : list method :=
  [m_process_video; m_transcribe; m_detect_language; m_save_transcripts;
   m_generate_description; m_save_description].

Definition is_stage (m : method) : bool := negb (method_eqb m m_translate_text).

(** The video cannot be decoded: the frame extractor raises. *)
Definition env_frames_down : Env :=
  {| extract_frames := fun _ _ _ _ => Raises (Exn "ValueError" "Could not open video.");
     frame_files := fun _ _ _ _ => [];
     extract_audio := fun _ _ _ => Returns (Some "RIFF");
     whisper := fun _ _ => Returns (Transcription (Some "This is a used bicycle, good condition, $50"));
     detect := fun _ v => sample_detect v;
     chat := fun _ _ => Returns (Some "- Bicycle");
     open_wb := fun _ _ => Returns tt |}.

(** The chat endpoint serves generation requests (one message) and rejects
    translation requests (two messages). *)
Definition env_translation_down : Env :=
  {| extract_frames := fun _ _ _ _ => Returns tt;
     frame_files := fun _ _ _ _ => [("frame_0000.jpg", "JFIF")];
     extract_audio := fun _ _ _ => Returns (Some "RIFF");
     whisper := fun _ _ => Returns (Transcription (Some "This is a used bicycle, good condition, $50"));
     detect := fun _ v => sample_detect v;
     chat := fun _ req =>
       match messages req with
       | [_] => Returns (Some "- Bicycle")
       | _ => Raises (Exn "APITimeoutError" "Request timed out.")
       end;
     open_wb := fun _ _ => Returns tt |}.


Definition run_frames_down : outcome (value * value) * state :=
  process_video env_frames_down (VideoProcessor_init "bike.mp4") "en" (fresh ∅).

Definition run_translation_down : outcome (value * value) * state :=
  process_video env_translation_down (VideoProcessor_init "bike.mp4") "de" (fresh ∅).

Definition run_ok_en : outcome (value * value) * state :=
  process_video env_ok (VideoProcessor_init "bike.mp4") "en" (fresh ∅).

(** ** Reduction of pipeline terms *)

Arguments generation_request : simpl never.
Arguments translation_request : simpl never.
Arguments transcription_request : simpl never.

(** Unfolds the monad and the pipeline functions, leaving oracle calls,
    requests, map operations and decisions untouched. *)
Ltac run_py :=
  cbv beta iota zeta delta
    [process_video transcribe detect_language translate_text
     generate_description _save_transcripts _save_description write_text
     chat_completion external record read_file put_file ret raise bind
     run_extract_frames of_optional
     try_except mbind mret M_bind M_ret tick files trace fresh history
     VideoProcessor_init video_path frames_dir audio_path transcripts_path
     description_path text_attr length fst snd rev app List.app List.rev
     calls_to before since chat_requests detections method_eqb truthy andb].

(** The same inside a hypothesis that describes a run. *)
Ltac run_py_in H :=
  cbv beta iota zeta delta
    [process_video transcribe detect_language translate_text
     generate_description _save_transcripts _save_description write_text
     chat_completion external record read_file put_file ret raise bind
     run_extract_frames of_optional
     try_except mbind mret M_bind M_ret tick files trace fresh
     VideoProcessor_init video_path frames_dir audio_path transcripts_path
     description_path text_attr length truthy andb] in H.

(** One step of the case analysis of a run [H : process_video ... = ...]:
    the next oracle answer, file lookup or comparison met on the way. *)
Ltac oracle_case H :=
  match type of H with
  | context [extract_frames ?env ?n ?a ?b ?c] =>
      destruct (extract_frames env n a b c) as [[]|?] eqn:?
  | context [extract_audio ?env ?n ?a ?b] =>
      destruct (extract_audio env n a b) as [[?|]|?] eqn:?
  | context [<[?k:=?v]> ?m !! ?k] => rewrite (lookup_insert_eq m k v) in H
  | context [match ?m !! ?k with _ => _ end] => destruct (m !! k) eqn:?
  | context [whisper ?env ?n ?r] =>
      destruct (whisper env n r) as [[[?|]]|?] eqn:?
  | context [detect ?env ?n ?v] =>
      destruct (detect env n v) as [[|? ?]|?] eqn:?
  | context [chat ?env ?n ?r] =>
      destruct (chat env n r) as [[?|]|?] eqn:?
  | context [bool_decide ?P] => destruct (bool_decide_reflect P)
  end; run_py_in H.

(** Splits a run [Hrun : process_video ... = (res, st')] into all its paths;
    each goal is left with the concrete result and final state. *)
Ltac pipeline_paths Hrun :=
  repeat oracle_case Hrun; injection Hrun as <- <-; run_py.

(** ** The leaf components *)

(** [detect_language] returns normally whatever the detector does. *)
Lemma detect_language_run (env : Env) (text : value) (st : state) :
  let r := detect env (S (tick st)) text in
  detect_language env text st =
    (Returns (match r with Returns code => VStr code | Raises _ => VNone end),
     {| files := files st;
        trace := EvDetect text r :: EvCall m_detect_language [text] :: trace st |}).
Proof.
  run_py. by destruct (detect env _ text).
Qed.


(** C8: [detect_language] never raises, whatever value it is given (a string,
    the empty string, a list, [None]): it returns the code the detector
    produced, and [None] when the detector raised. *)
Theorem detect_language_never_raises (env : Env) (text : value) (st : state) :
  fst (detect_language env text st) =
    Returns (match detect env (S (tick st)) text with
             | Returns code => VStr code
             | Raises _ => VNone
             end).
Proof.
  by rewrite detect_language_run.
Qed.



(** X1: The value [transcribe] hands back in each situation; it never raises. *)
Lemma transcribe_result (env : Env) (path : string) (st : state) :
  fst (transcribe env path st) =
    Returns (match files st !! path with
             | None => VEmptyList
             | Some bytes =>
                 match whisper env (S (tick st)) (transcription_request bytes) with
                 | Returns reply =>
                     match text_attr reply with
                     | Some text => VStr text
                     | None => VEmptyList
                     end
                 | Raises _ => VEmptyList
                 end
             end).
Proof.
  run_py. destruct (_ !! path); [|done].
  destruct (whisper env _ _) as [[[text|]]|e]; done.
Qed.


(** ** Facts on strings, requests and events *)

Lemma string_app_length (a b : string) :
  String.length (a +:+ b) = String.length a + String.length b.
Proof. induction a as [|c a IH]; simpl; [done | by f_equal]. Qed.

Lemma string_app_inv_tail (a b t : string) : a +:+ t = b +:+ t → a = b.
Proof.
  revert b. induction a as [|c a IH]; intros [|d b] H.
  - done.
  - apply (f_equal String.length) in H.
    rewrite !string_app_length in H. simpl in H. lia.
  - apply (f_equal String.length) in H.
    rewrite !string_app_length in H. simpl in H. lia.
  - injection H as -> H. f_equal. by apply IH.
Qed.

(** Two transcripts with the same generation request are the same text. *)
Lemma generation_request_inj (a b : string) :
  generation_request (VStr a) = generation_request (VStr b) → a = b.
Proof.
  unfold generation_request. intros [= H].
  by apply (string_app_inv_tail a b prompt_tail).
Qed.

(** A translation request (two messages) is never a generation request. *)
Lemma translation_is_not_generation (text t : value) (lang : string) :
  translation_request text lang ≠ generation_request t.
Proof. unfold translation_request, generation_request. intros H. discriminate H. Qed.

Lemma EvChat_inj (q1 q2 : chat_request) (r1 r2 : outcome (option string)) :
  EvChat q1 r1 = EvChat q2 r2 → q1 = q2 ∧ r1 = r2.
Proof. by intros [= -> ->]. Qed.

Lemma EvDetect_inj (t1 t2 : value) (r1 r2 : outcome string) :
  EvDetect t1 r1 = EvDetect t2 r2 → t1 = t2 ∧ r1 = r2.
Proof. by intros [= -> ->]. Qed.

Lemma EvCall_inj (m1 m2 : method) (a1 a2 : list value) :
  EvCall m1 a1 = EvCall m2 a2 → m1 = m2 ∧ a1 = a2.
Proof. by intros [= -> ->]. Qed.

Lemma method_eqb_eq (m1 m2 : method) : method_eqb m1 m2 = true ↔ m1 = m2.
Proof. destruct m1, m2; cbn; split; intros H; done. Qed.

Lemma In_detections (h : list event) (text : value) (r : outcome string) :
  In (EvDetect text r) h ↔ In (text, r) (detections h).
Proof.
  induction h as [|ev h IH]; [done|].
  destruct ev; cbn [In detections]; rewrite <- ?IH; intuition congruence.
Qed.

Lemma In_calls_to (h : list event) (m : method) (args : list value) :
  In (EvCall m args) h ↔ In args (calls_to m h).
Proof.
  induction h as [|ev h IH]; [done|].
  destruct ev as [m' args'| | | | |]; cbn [In calls_to];
    try (rewrite <- IH; intuition congruence).
  destruct (method_eqb m' m) eqn:Hm; cbn [In]; rewrite <- IH.
  - apply method_eqb_eq in Hm as ->. intuition congruence.
  - split; [intros [[= -> ->]|H]|]; auto.
    assert (method_eqb m m = true) as Hmm by by apply method_eqb_eq.
    congruence.
Qed.

Lemma In_chat_requests (h : list event) (req : chat_request) :
  In req (chat_requests h) ↔ ∃ o, In (EvChat req o) h.
Proof.
  induction h as [|ev h IH]; [by split; [|intros [o Ho]]|].
  destruct ev as [| | | | |req' o']; cbn [In chat_requests]; rewrite ?IH; split.
  all: try (intros [o Ho]; exists o; by right).
  all: try (intros [o [Ho|Ho]]; [discriminate Ho | by exists o]).
  - intros [->|[o Ho]]; [eexists; by left | exists o; by right].
  - intros [o [[= -> ->]|Ho]]; [by left | right; by exists o].
Qed.

(** Decomposes membership of an event in a concrete history. *)
Ltac event_eqs :=
  repeat match goal with
  | H : _ ∨ _ |- _ => destruct H as [H|H]
  | H : _ ∧ _ |- _ => destruct H as [? ?]
  | H : False |- _ => destruct H
  | H : EvChat _ _ = EvChat _ _ |- _ => apply EvChat_inj in H
  | H : EvDetect _ _ = EvDetect _ _ |- _ => apply EvDetect_inj in H
  | H : EvCall _ _ = EvCall _ _ |- _ => apply EvCall_inj in H
  | H : translation_request _ _ = generation_request _ |- _ =>
      destruct (translation_is_not_generation _ _ _ H)
  | H : generation_request (VStr _) = generation_request (VStr _) |- _ =>
      apply generation_request_inj in H; subst
  | H : @eq event _ _ |- _ => discriminate H
  | H : @eq (outcome _) _ _ |- _ => discriminate H
  | H : @eq method _ _ |- _ => discriminate H
  end.

Ltac tidy :=
  repeat match goal with
  | H : ¬ (_ ≠ _) |- _ => apply dec_stable in H
  | H : VStr _ = VStr _ |- _ => injection H as H
  end; subst.

(** The frames leave every path outside their directory alone. *)
Lemma lookup_put_frames_ne
    (dir : string) (frames : list (string * string)) (fs : gmap string string)
    (path : string) :
  (∀ name, dir +:+ name ≠ path) →
  put_frames dir frames fs !! path = fs !! path.
Proof.
  intros Hout. induction frames as [|[name bytes] frames IH]; [done|].
  cbn [put_frames foldr fst snd]. rewrite lookup_insert_ne by apply Hout.
  apply IH.
Qed.

(** A path that does not begin like the directory is not in it. *)
Ltac outside_directory :=
  let H := fresh in
  intros ? H; cbv beta iota delta [String.append] in H; discriminate H.

(** Reads the artifact files back from a final file map. *)
Ltac read_files :=
  repeat first
    [ rewrite lookup_insert_eq
    | rewrite lookup_insert_ne by done
    | rewrite lookup_put_frames_ne by outside_directory ].

(** ** The orchestrator *)

(** C6: when the generation request for the transcript [s] fails with [e],
    [process_video] raises [e] to its caller; [_save_transcripts] had been
    called with [s] before, the transcript file still holds [s] when the
    exception leaves, and the description file was not touched. *)
Theorem generation_failure_is_propagated
    (env : Env) (video target_lang : string) (fs : gmap string string)
    (s : string) (e : exn) :
  let r := process_video env (VideoProcessor_init video) target_lang (fresh fs) in
  let h := history (snd r) in
  In (EvChat (generation_request (VStr s)) (Raises e)) h →
  fst r = Raises e
  ∧ calls_to m_save_transcripts h = [[VStr s]]
  ∧ files (snd r) !! "outputs/transcripts/transcript.txt" = Some s
  ∧ calls_to m_save_description h = []
  ∧ files (snd r) !! "outputs/description/description.txt"
    = fs !! "outputs/description/description.txt".
Proof.
  intros r h. subst h.
  destruct r as [res st'] eqn:Hrun. subst r.
  run_py_in Hrun. pipeline_paths Hrun.
  all: cbn [In]; intros HIn; event_eqs.
  all: repeat split; try done; try congruence; by read_files.
Qed.

Lemma generation_failure_is_propagated_witness :
  fst run_chat_down = Raises (Exn "RateLimitError" "Rate limit reached.")
  ∧ files (snd run_chat_down) !! "outputs/transcripts/transcript.txt"
    = Some "This is a used bicycle, good condition, $50".
Proof.
  destruct (generation_failure_is_propagated env_chat_down "bike.mp4" "en" ∅
              "This is a used bicycle, good condition, $50"
              (Exn "RateLimitError" "Rate limit reached."))
    as (Hres & _ & Hfile & _).
  - vm_compute. do 9 right. left. reflexivity.
  - split; [exact Hres | exact Hfile].
Defined.

(** The part of a run up to [_save_transcripts]: either the detector was not
    reached, or it was called once, on the value [transcribe] returned, and
    [translate_text] was called on that value exactly when the detector
    answered with a code other than the target. *)
Lemma transcript_stage_shape
    (env : Env) (video target_lang : string) (fs : gmap string string)
    (Hcodes : ∀ n text, detect env n text ≠ Returns "") :
  let r := process_video env (VideoProcessor_init video) target_lang (fresh fs) in
  let h := history (snd r) in
  let translations := calls_to m_translate_text (before m_save_transcripts h) in
  (detections h = [] ∧ translations = [])
  ∨ ∃ text res,
      detections h = [(text, res)]
      ∧ ((∃ code, res = Returns code ∧ code ≠ target_lang
                  ∧ translations = [[text; VStr target_lang]])
         ∨ ((res = Returns target_lang ∨ ∃ e, res = Raises e)
            ∧ translations = []
            ∧ calls_to m_save_transcripts h = [[text]]
            ∧ ∀ s, text = VStr s →
                files (snd r) !! "outputs/transcripts/transcript.txt" = Some s)).
Proof.
  intros r h. subst h.
  destruct r as [res st'] eqn:Hrun. subst r.
  run_py_in Hrun. pipeline_paths Hrun.
  all: try (exfalso; eapply Hcodes; eassumption).
  all: tidy.
  all: first
    [ left; by repeat split
    | right; eexists _, _; split; [reflexivity|];
      first
        [ left; eexists; split; [reflexivity|]; split; [congruence|reflexivity]
        | right; split; [first [by left | right; by eexists]|];
          split; [reflexivity|]; split; [reflexivity|];
          intros ? [= <-]; by read_files
        | right; split; [first [by left | right; by eexists]|];
          split; [reflexivity|]; split; [reflexivity|];
          intros ? [=] ] ].
Qed.

(** C4: in every run of [process_video], [translate_text] is called on the
    transcript (that is, before [_save_transcripts]) if and only if the
    detector returned a code that differs from [target_lang]; it is then
    called once, on the detected text.  When the detector raised (the null
    result) or returned the target itself, no such call is made and
    [_save_transcripts] receives the detected value unchanged, which the
    transcript file then holds when it is a text. *)
Theorem transcript_translated_iff
    (env : Env) (video target_lang : string) (fs : gmap string string)
    (Hcodes : ∀ n text, detect env n text ≠ Returns "") :
  let r := process_video env (VideoProcessor_init video) target_lang (fresh fs) in
  let h := history (snd r) in
  let translations := calls_to m_translate_text (before m_save_transcripts h) in
  (translations ≠ []
   ↔ ∃ text code, In (EvDetect text (Returns code)) h ∧ code ≠ target_lang)
  ∧ (∀ text code,
       In (EvDetect text (Returns code)) h → code ≠ target_lang →
       translations = [[text; VStr target_lang]])
  ∧ (∀ text res,
       In (EvDetect text res) h →
       res = Returns target_lang ∨ (∃ e, res = Raises e) →
       translations = []
       ∧ calls_to m_save_transcripts h = [[text]]
       ∧ ∀ s, text = VStr s →
           files (snd r) !! "outputs/transcripts/transcript.txt" = Some s).
Proof.
  intros r h translations.
  destruct (transcript_stage_shape env video target_lang fs Hcodes)
    as [[Hd Ht]|(text0 & res0 & Hd & Hcase)];
    fold r h translations in Hd, Ht || fold r h translations in Hd, Hcase.
  - assert (∀ text res, ¬ In (EvDetect text res) h) as Hnone.
    { intros text res HIn. apply In_detections in HIn.
      rewrite Hd in HIn. destruct HIn. }
    split; [|split].
    + split; [intros Hne; by destruct Hne|].
      intros (text & code & HIn & _). by destruct (Hnone _ _ HIn).
    + intros text code HIn _. by destruct (Hnone _ _ HIn).
    + intros text res HIn _. by destruct (Hnone _ _ HIn).
  - assert (∀ text res, In (EvDetect text res) h → text = text0 ∧ res = res0)
      as Honly.
    { intros text res HIn. apply In_detections in HIn. rewrite Hd in HIn.
      by destruct HIn as [[= <- <-]|[]]. }
    assert (In (EvDetect text0 res0) h) as HIn0.
    { apply In_detections. rewrite Hd. by left. }
    destruct Hcase as [(code0 & -> & Hne & Ht)|(Hres & Ht & Hsave & Hfile)].
    + split; [|split].
      * split; [intros _; by exists text0, code0 | intros _; by rewrite Ht].
      * intros text code HIn _. by destruct (Honly _ _ HIn) as [-> _].
      * intros text res HIn Hskip. destruct (Honly _ _ HIn) as [_ ->].
        by destruct Hskip as [[= ->]|[e [=]]].
    + split; [|split].
      * split; [intros Hne; by destruct Hne|].
        intros (text & code & HIn & Hne). destruct (Honly _ _ HIn) as [_ <-].
        by destruct Hres as [[= ->]|[e [=]]].
      * intros text code HIn Hne. destruct (Honly _ _ HIn) as [_ <-].
        by destruct Hres as [[= ->]|[e [=]]].
      * intros text res HIn _. by destruct (Honly _ _ HIn) as [-> _].
Qed.

Lemma transcript_translated_iff_witness :
  calls_to m_translate_text (before m_save_transcripts (history (snd run_ok_de)))
  = [[VStr "This is a used bicycle, good condition, $50"; VStr "de"]].
Proof.
  assert (∀ (n : nat) text, detect env_ok n text ≠ Returns "") as Hcodes.
  { intros n [[|c s]| |]; discriminate. }
  destruct (transcript_translated_iff env_ok "bike.mp4" "de" ∅ Hcodes)
    as (_ & Hcall & _).
  apply (Hcall (VStr "This is a used bicycle, good condition, $50") "en").
  - vm_compute. do 6 right. left. reflexivity.
  - discriminate.
Defined.

(** Replays the oracle answers of a path in a goal that runs a component
    again. *)
Ltac replay :=
  repeat first
    [ match goal with H : chat _ _ _ = _ |- _ => rewrite H end; run_py
    | rewrite bool_decide_eq_true_2 by assumption; run_py
    | rewrite bool_decide_eq_false_2 by assumption; run_py ].

(** C9, as the code has it: a run that completes returns two texts, the
    transcript file holds the first and the description file the second.
    [generate_description] was called on the persisted transcript, whatever
    it is (nothing on the way tests the transcript for emptiness), and the
    description returned and saved is what [generate_description] returns for
    that transcript at that point of the run. *)
Theorem completed_run_artifacts
    (env : Env) (video target_lang : string) (fs : gmap string string)
    (transcript description : value) :
  let r := process_video env (VideoProcessor_init video) target_lang (fresh fs) in
  let h := history (snd r) in
  fst r = Returns (transcript, description) →
  ∃ s d,
    transcript = VStr s ∧ description = VStr d
    ∧ files (snd r) !! "outputs/transcripts/transcript.txt" = Some s
    ∧ files (snd r) !! "outputs/description/description.txt" = Some d
    ∧ calls_to m_generate_description h = [[VStr s; VStr target_lang]]
    ∧ In (generation_request (VStr s)) (chat_requests h)
    ∧ calls_to m_save_description h = [[VStr d]]
    ∧ fst (generate_description env (VStr s) target_lang
             {| files := files (snd r);
                trace := rev (before m_generate_description h) |})
      = Returns (VStr d).
Proof.
  intros r h. subst h.
  destruct r as [res st'] eqn:Hrun. subst r.
  run_py_in Hrun. pipeline_paths Hrun.
  all: intros Hres; try discriminate Hres; injection Hres as <- <-.
  all: eexists _, _; split; [reflexivity|]; split; [reflexivity|].
  all: split; [by read_files|]; split; [by read_files|].
  all: split; [reflexivity|]; split; [cbn [In]; by auto|].
  all: split; [reflexivity|].
  all: replay; reflexivity.
Qed.

Lemma completed_run_artifacts_witness :
  files (snd run_silent) !! "outputs/transcripts/transcript.txt" = Some ""
  ∧ files (snd run_silent) !! "outputs/description/description.txt"
    = Some "- Product: not mentioned"
  ∧ In (generation_request (VStr "")) (chat_requests (history (snd run_silent)))
  ∧ fst (generate_description env_silent (VStr "") "en"
           {| files := files (snd run_silent);
              trace := rev (before m_generate_description (history (snd run_silent))) |})
    = Returns (VStr "- Product: not mentioned").
Proof.
  destruct (completed_run_artifacts env_silent "bike.mp4" "en" ∅
              (VStr "") (VStr "- Product: not mentioned"))
    as (s & d & [= <-] & [= <-] & Hfile & Hdescription & _ & Hreq & _ & Hgen).
  - vm_compute. reflexivity.
  - split; [exact Hfile|]. split; [exact Hdescription|].
    split; [exact Hreq | exact Hgen].
Defined.

(** C9, as the spec has it, fails: with a soundless recording the transcript
    is the empty text, the generation request is sent all the same, and the
    description that comes back is persisted although it is not empty. *)
Lemma description_without_transcript :
  ¬ (∀ env video target_lang fs t d,
       fst (process_video env (VideoProcessor_init video) target_lang (fresh fs))
       = Returns (VStr t, VStr d) →
       d ≠ "" → t ≠ "")
  ∧ fst run_silent = Returns (VStr "", VStr "- Product: not mentioned")
  ∧ files (snd run_silent) !! "outputs/description/description.txt"
    = Some "- Product: not mentioned"
  ∧ chat_requests (history (snd run_silent)) = [generation_request (VStr "")].
Proof.
  split; [|by vm_compute].
  intros H.
  apply (H env_silent "bike.mp4" "en" ∅ "" "- Product: not mentioned");
    [by vm_compute | discriminate | reflexivity].
Qed.

(** ** The application *)

(** With a target that is neither ["en"] nor anything the detector answers,
    both translations take place: the one of the transcript after every
    detection that succeeds, and the one of the description after every
    generation request that returns, which is sent whenever a transcript was
    saved. *)
Lemma foreign_target_is_translated
    (env : Env) (video target_lang : string) (fs : gmap string string)
    (Hen : target_lang ≠ "en")
    (Hcodes : ∀ n text code,
        detect env n text = Returns code → code ≠ "" ∧ code ≠ target_lang) :
  let h := history (snd (process_video env (VideoProcessor_init video) target_lang (fresh fs))) in
  calls_to m_process_video h = [[VStr target_lang]]
  ∧ (∀ text code,
       In (EvDetect text (Returns code)) h →
       code ≠ target_lang
       ∧ calls_to m_translate_text (before m_save_transcripts h)
         = [[text; VStr target_lang]])
  ∧ (∀ s,
       calls_to m_save_transcripts h = [[VStr s]] →
       calls_to m_generate_description h = [[VStr s; VStr target_lang]]
       ∧ ∃ answer, In (EvChat (generation_request (VStr s)) answer) h)
  ∧ (∀ t draft,
       In (EvChat (generation_request t) (Returns draft)) h →
       calls_to m_translate_text (since m_generate_description h)
       = [[of_optional draft; VStr target_lang]]).
Proof.
  intros h. subst h.
  destruct (process_video _ _ _ _) as [res st'] eqn:Hrun.
  run_py_in Hrun. pipeline_paths Hrun.
  all: try (exfalso;
            match goal with
            | H : detect _ _ _ = Returns _ |- _ => destruct (Hcodes _ _ _ H)
            end; tidy; congruence).
  all: try (exfalso; tidy; congruence).
  all: split; [reflexivity|]; split; [|split].
  all: try (intros ? Hsaved;
            first [ discriminate Hsaved
                  | injection Hsaved as <-; split; [reflexivity|]; eexists;
                    cbn [In]; by eauto 20 ]).
  all: intros ? ?; cbn [In]; intros HIn; event_eqs; tidy.
  all: try (split; [|congruence]).
  all: try congruence.
  all: match goal with H : Returns _ = Returns _ |- _ => injection H as <- end;
    reflexivity.
Qed.

(** The names the select box offers are not language codes. *)
Lemma selectbox_name (ui : UI) :
  In (selectbox ui (map fst target_languages)) (map fst target_languages).
Proof.
  unfold selectbox.
  destruct (selected ui) as [|[|[|[|[|[|n]]]]]];
    cbn [nth hd map fst target_languages In]; auto 10.
Qed.

Lemma language_name_is_no_code (name : string) :
  In name (map fst target_languages) →
  is_language_code name = false
  ∧ ¬ In name (map snd target_languages)
  ∧ name ≠ "en".
Proof.
  cbn. intros [<-|[<-|[<-|[<-|[<-|[]]]]]]; repeat split; try discriminate.
  all: intros H; decompose [or] H; try discriminate; done.
Qed.

(** When the upload was stored and the button pressed, [run] is one run of
    [process_video] on the stored upload with the selected option. *)
Lemma run_is_process_video
    (env : Env) (ui : UI) (name bytes : string) (fs : gmap string string) :
  uploaded_file ui = Some (name, bytes) →
  open_wb env 0 (os_path_join "temp_uploads" name) = Returns tt →
  button ui = true →
  snd (run env ui (fresh fs))
  = snd (process_video env (VideoProcessor_init (os_path_join "temp_uploads" name))
           (selectbox ui (map fst target_languages))
           (fresh (<[os_path_join "temp_uploads" name := bytes]> fs))).
Proof.
  intros Hfile Hstored Hbutton. unfold run, _upload_video. rewrite Hfile.
  cbv beta iota zeta delta
    [mbind mret M_bind M_ret bind ret put_file open_write try_except fresh
     files trace tick length].
  rewrite Hstored, Hbutton.
  by destruct (process_video _ _ _ _) as [[res|e] st'].
Qed.

(** C3: [run] hands [process_video] the option picked in the select box,
    which is a key of [target_languages] (a language name) and none of its
    codes.  Hence, the detector answering with language codes, every
    detection that succeeds is followed by a call of [translate_text] on the
    transcript; and the target never being ["en"], every run that saved a
    transcript enters [generate_description] and sends the generation
    request, and whatever that request returns is handed to [translate_text]
    as well, whatever language the content is in.  The upload must have been
    stored and the button pressed for the pipeline to start. *)
Theorem run_passes_language_name
    (env : Env) (ui : UI) (name bytes : string) (fs : gmap string string)
    (Hcodes : ∀ n text code,
        detect env n text = Returns code → is_language_code code = true)
    (Hfile : uploaded_file ui = Some (name, bytes))
    (Hstored : open_wb env 0 (os_path_join "temp_uploads" name) = Returns tt)
    (Hbutton : button ui = true) :
  let target_lang := selectbox ui (map fst target_languages) in
  let h := history (snd (run env ui (fresh fs))) in
  In target_lang (map fst target_languages)
  ∧ ¬ In target_lang (map snd target_languages)
  ∧ calls_to m_process_video h = [[VStr target_lang]]
  ∧ (∀ text code,
       In (EvDetect text (Returns code)) h →
       code ≠ target_lang
       ∧ calls_to m_translate_text (before m_save_transcripts h)
         = [[text; VStr target_lang]])
  ∧ target_lang ≠ "en"
  ∧ (∀ s,
       calls_to m_save_transcripts h = [[VStr s]] →
       calls_to m_generate_description h = [[VStr s; VStr target_lang]]
       ∧ ∃ answer, In (EvChat (generation_request (VStr s)) answer) h)
  ∧ (∀ t draft,
       In (EvChat (generation_request t) (Returns draft)) h →
       calls_to m_translate_text (since m_generate_description h)
       = [[of_optional draft; VStr target_lang]]).
Proof.
  intros target_lang h.
  pose proof (selectbox_name ui) as Hname. fold target_lang in Hname.
  destruct (language_name_is_no_code _ Hname) as (Hnocode & Hnotcode & Hen).
  assert (∀ n text code,
             detect env n text = Returns code → code ≠ "" ∧ code ≠ target_lang)
    as Hdiffer.
  { intros n text code Hdet. apply Hcodes in Hdet.
    split; intros ->; [discriminate Hdet | congruence]. }
  unfold h.
  rewrite (run_is_process_video env ui name bytes fs Hfile Hstored Hbutton).
  fold target_lang.
  destruct (foreign_target_is_translated env (os_path_join "temp_uploads" name)
              target_lang (<[os_path_join "temp_uploads" name := bytes]> fs)
              Hen Hdiffer)
    as (Hcall & Htranscript & Hgenerate & Hdescription).
  split; [done|]. split; [done|]. split; [done|].
  split; [|split; [done|]; split].
  - intros text code HIn. by apply Htranscript.
  - intros s Hsaved. by apply Hgenerate.
  - intros t draft HIn. by apply (Hdescription t).
Qed.

Lemma run_passes_language_name_witness :
  calls_to m_process_video (history (snd run_app_ok)) = [[VStr "German"]]
  ∧ calls_to m_translate_text (before m_save_transcripts (history (snd run_app_ok)))
    = [[VStr "This is a used bicycle, good condition, $50"; VStr "German"]]
  ∧ calls_to m_generate_description (history (snd run_app_ok))
    = [[VStr "- Bicycle"; VStr "German"]]
  ∧ calls_to m_translate_text (since m_generate_description (history (snd run_app_ok)))
    = [[VStr "- Bicycle"; VStr "German"]].
Proof.
  assert (∀ (n : nat) text code,
             detect env_ok n text = Returns code → is_language_code code = true)
    as Hcodes.
  { intros n [[|c s]| |] code [= <-]. reflexivity. }
  destruct (run_passes_language_name env_ok sample_ui "bike.mp4" "ftypisom" ∅
              Hcodes eq_refl eq_refl eq_refl)
    as (_ & _ & Hcall & Htranscript & _ & Hgenerate & Hdescription).
  split; [exact Hcall|]. split; [|split].
  - apply (Htranscript (VStr "This is a used bicycle, good condition, $50") "en").
    vm_compute. do 6 right. left. reflexivity.
  - apply (Hgenerate "- Bicycle"). vm_compute. reflexivity.
  - apply (Hdescription (VStr "- Bicycle") (Some "- Bicycle")).
    vm_compute. do 11 right. left. reflexivity.
Defined.

(** ** The degraded transcript *)

(** C2: the fallback of [transcribe] is not the empty string.  When the
    endpoint cannot be reached, when the audio file is missing and when the
    answer has no [text], [transcribe] returns normally, and what it returns
    is the empty list. *)
Theorem transcribe_fallback_is_a_list :
  fst (transcribe env_whisper_down "outputs/audio/audio.mp3"
         (fresh {[ "outputs/audio/audio.mp3" := "RIFF" ]}))
  = Returns VEmptyList
  ∧ fst (transcribe env_ok "outputs/audio/audio.mp3" (fresh ∅))
    = Returns VEmptyList
  ∧ fst (transcribe env_no_text "outputs/audio/audio.mp3"
           (fresh {[ "outputs/audio/audio.mp3" := "RIFF" ]}))
    = Returns VEmptyList
  ∧ VEmptyList ≠ VStr "".
Proof.
  repeat split; try by vm_compute.
Qed.

(** C1: an exception that is neither an extraction nor a generation failure
    leaves [process_video].  With the transcription endpoint down, both
    extractors return normally, [_save_transcripts] receives the empty list
    and its [write] raises [TypeError], which [process_video] re-raises;
    [generate_description] is never entered and no chat request is sent.
    The transcript file is left truncated. *)
Theorem degraded_transcript_raises_TypeError :
  fst run_whisper_down = Raises (TypeError "write() argument must be str, not list")
  ∧ In (EvExtractFrames "bike.mp4" "outputs/frames/" 60 (Returns tt))
       (history (snd run_whisper_down))
  ∧ In (EvExtractAudio "bike.mp4" "outputs/audio/audio.mp3" (Returns (Some "RIFF")))
       (history (snd run_whisper_down))
  ∧ calls_to m_save_transcripts (history (snd run_whisper_down)) = [[VEmptyList]]
  ∧ calls_to m_generate_description (history (snd run_whisper_down)) = []
  ∧ chat_requests (history (snd run_whisper_down)) = []
  ∧ files (snd run_whisper_down) !! "outputs/transcripts/transcript.txt" = Some "".
Proof.
  repeat split; try by vm_compute.
  - vm_compute. right. left. reflexivity.
  - vm_compute. do 2 right. left. reflexivity.
Qed.

(** ** Start-up *)

(** C10: when [OPENAI_API_KEY] is not in the environment, the script stops
    with [ValueError] while importing [transcribe_audio], before [run] is
    entered: nothing is recorded (no transcription, translation or generation
    call) and no file is written. *)
Theorem missing_key_fails_at_import
    (env : Env) (environ : gmap string string) (ui : UI) (fs : gmap string string)
    (Habsent : environ !! "OPENAI_API_KEY" = None) :
  fst (main_py env environ ui (fresh fs))
  = Raises (ValueError "API key is missing. Set OPENAI_API_KEY as an environment variable.")
  ∧ history (snd (main_py env environ ui (fresh fs))) = []
  ∧ files (snd (main_py env environ ui (fresh fs))) = fs.
Proof.
  unfold main_py, import_transcribe_audio.
  cbv beta iota zeta delta [mbind mret M_bind M_ret bind].
  by rewrite Habsent.
Qed.

Lemma missing_key_fails_at_import_witness :
  history (snd (main_py env_ok ∅ sample_ui (fresh ∅))) = [].
Proof.
  destruct (missing_key_fails_at_import env_ok ∅ sample_ui ∅) as (_ & Hnone & _).
  - reflexivity.
  - exact Hnone.
Defined.

(** ** Further properties of the components *)

(** Unfolds the observations that the claims do not use. *)
Ltac observe :=
  cbv beta iota zeta delta
    [entries whisper_requests is_stage stage_order method_eqb negb
     List.filter length chat_requests calls_to detections].

(** X2: [transcribe] never writes a file.  It sends one request, built from the
    bytes of the audio file, when that file exists, and none when it does
    not; the request does not depend on anything else. *)
Theorem transcribe_effects (env : Env) (path : string) (st : state) :
  files (snd (transcribe env path st)) = files st
  ∧ trace (snd (transcribe env path st)) =
      match files st !! path with
      | Some bytes =>
          EvWhisper (transcription_request bytes)
            (whisper env (S (tick st)) (transcription_request bytes))
          :: EvCall m_transcribe [VStr path] :: trace st
      | None => EvCall m_transcribe [VStr path] :: trace st
      end.
Proof.
  run_py. destruct (_ !! path); [|done].
  by destruct (whisper env _ _) as [[[text|]]|e].
Qed.


(** X5: The prompt keeps the transcript apart: two texts give the same prompt
    only when they are the same text. *)
Theorem prompt_format_text_inj (a b : string) :
  prompt_format (VStr a) = prompt_format (VStr b) ↔ a = b.
Proof.
  split; [|by intros ->].
  unfold prompt_format. cbn [py_str]. intros H.
  apply (inj (String.app prompt_head)) in H.
  by apply (string_app_inv_tail a b prompt_tail).
Qed.

(** ** Further properties of the orchestrator and the application *)

(** The text to translate can be read back from a translation request. *)
Lemma translation_request_inj (a b : value) (la lb : string) :
  translation_request a la = translation_request b lb → a = b.
Proof.
  intros H.
  apply (f_equal (fun req => match messages req with
                             | [_; m] => content m
                             | _ => VNone
                             end)) in H.
  exact H.
Qed.

(** X7: When an extractor raises, [process_video] raises the same exception at
    once: [transcribe] is not entered, no request is sent, and neither the
    transcript nor the description file is written. *)
Theorem extraction_failure_aborts
    (env : Env) (video target_lang : string) (fs : gmap string string) (e : exn) :
  let r := process_video env (VideoProcessor_init video) target_lang (fresh fs) in
  let h := history (snd r) in
  In (EvExtractFrames video "outputs/frames/" 60 (Raises e)) h
  ∨ In (EvExtractAudio video "outputs/audio/audio.mp3" (Raises e)) h →
  fst r = Raises e
  ∧ entries h = [m_process_video]
  ∧ whisper_requests h = []
  ∧ chat_requests h = []
  ∧ files (snd r) !! "outputs/transcripts/transcript.txt"
    = fs !! "outputs/transcripts/transcript.txt"
  ∧ files (snd r) !! "outputs/description/description.txt"
    = fs !! "outputs/description/description.txt".
Proof.
  intros r h. subst h.
  destruct r as [res st'] eqn:Hrun. subst r.
  run_py_in Hrun. pipeline_paths Hrun.
  all: cbn [In]; intros HIn; event_eqs.
  all: try match goal with
       | H : EvExtractFrames _ _ _ _ = EvExtractFrames _ _ _ _ |- _ =>
           injection H as H
       | H : EvExtractAudio _ _ _ = EvExtractAudio _ _ _ |- _ =>
           injection H as H
       end.
  all: try discriminate.
  all: subst; observe; repeat split; by read_files.
Qed.

Lemma extraction_failure_aborts_witness :
  fst run_frames_down = Raises (Exn "ValueError" "Could not open video.")
  ∧ files (snd run_frames_down) !! "outputs/transcripts/transcript.txt" = None.
Proof.
  destruct (extraction_failure_aborts env_frames_down "bike.mp4" "en" ∅
              (Exn "ValueError" "Could not open video."))
    as (Hres & _ & _ & _ & Hfile & _).
  - left. vm_compute. right. left. reflexivity.
  - split; [exact Hres | exact Hfile].
Defined.

(** X8: The stages of a run are entered in one fixed order, each at most once,
    and a run that stops early has entered an initial part of them. *)
Theorem stages_in_order
    (env : Env) (video target_lang : string) (fs : gmap string string) :
  let h := history (snd (process_video env (VideoProcessor_init video) target_lang (fresh fs))) in
  List.filter is_stage (entries h) `prefix_of` stage_order.
Proof.
  intros h. subst h.
  destruct (process_video _ _ _ _) as [res st'] eqn:Hrun.
  run_py_in Hrun. pipeline_paths Hrun.
  all: observe; by eexists.
Qed.

(** X9: One run sends at most one transcription request, asks the detector at
    most once, and sends at most three chat requests, of which at most two
    are translations. *)
Theorem requests_are_bounded
    (env : Env) (video target_lang : string) (fs : gmap string string) :
  let h := history (snd (process_video env (VideoProcessor_init video) target_lang (fresh fs))) in
  (length (whisper_requests h) ≤ 1)%nat
  ∧ (length (detections h) ≤ 1)%nat
  ∧ (length (chat_requests h) ≤ 3)%nat
  ∧ (length (calls_to m_translate_text h) ≤ 2)%nat.
Proof.
  intros h. subst h.
  destruct (process_video _ _ _ _) as [res st'] eqn:Hrun.
  run_py_in Hrun. pipeline_paths Hrun.
  all: observe; lia.
Qed.

(** X10: Apart from the images the frame extractor leaves under
    [outputs/frames/] and the audio track, the only files [process_video]
    changes are the transcript and the description. *)
Theorem only_artifacts_are_written
    (env : Env) (video target_lang : string) (fs : gmap string string)
    (path : string) :
  let r := process_video env (VideoProcessor_init video) target_lang (fresh fs) in
  (∀ name, "outputs/frames/" +:+ name ≠ path) →
  path ≠ "outputs/audio/audio.mp3" →
  path ≠ "outputs/transcripts/transcript.txt" →
  path ≠ "outputs/description/description.txt" →
  files (snd r) !! path = fs !! path.
Proof.
  intros r. destruct r as [res st'] eqn:Hrun. subst r.
  run_py_in Hrun. pipeline_paths Hrun.
  all: intros Hframes Haudio Htranscript Hdescription.
  all: rewrite ?lookup_insert_ne by done.
  all: by apply lookup_put_frames_ne.
Qed.

Lemma only_artifacts_are_written_witness :
  files (snd run_ok_de) !! "temp_uploads/bike.mp4"
  = (∅ : gmap string string) !! "temp_uploads/bike.mp4".
Proof.
  apply (only_artifacts_are_written env_ok "bike.mp4" "de" ∅
           "temp_uploads/bike.mp4"); discriminate.
Defined.

(** X12: When the translation of the transcript [s] fails, the run goes on with
    [s] itself: [s] is saved as the transcript and the description is
    generated from it. *)
Theorem transcript_translation_failure_degrades
    (env : Env) (video target_lang : string) (fs : gmap string string)
    (s : string) (e : exn) :
  let r := process_video env (VideoProcessor_init video) target_lang (fresh fs) in
  let h := history (snd r) in
  In (EvChat (translation_request (VStr s) target_lang) (Raises e))
     (before m_save_transcripts h) →
  calls_to m_save_transcripts h = [[VStr s]]
  ∧ files (snd r) !! "outputs/transcripts/transcript.txt" = Some s
  ∧ calls_to m_generate_description h = [[VStr s; VStr target_lang]].
Proof.
  intros r h. subst h.
  destruct r as [res st'] eqn:Hrun. subst r.
  run_py_in Hrun. pipeline_paths Hrun.
  all: cbn [In]; intros HIn; event_eqs.
  all: repeat match goal with
       | H : translation_request _ _ = translation_request _ _ |- _ =>
           apply translation_request_inj in H
       end.
  all: try discriminate.
  all: tidy.
  all: repeat split; by read_files.
Qed.

Lemma transcript_translation_failure_degrades_witness :
  files (snd run_translation_down) !! "outputs/transcripts/transcript.txt"
  = Some "This is a used bicycle, good condition, $50".
Proof.
  destruct (transcript_translation_failure_degrades env_translation_down
              "bike.mp4" "de" ∅ "This is a used bicycle, good condition, $50"
              (Exn "APITimeoutError" "Request timed out."))
    as (_ & Hfile & _).
  - vm_compute. do 8 right. left. reflexivity.
  - exact Hfile.
Defined.

(** X13: When the translation of the description draft fails, the run still
    completes, and the draft itself is returned and saved as the
    description. *)
Theorem description_translation_failure_degrades
    (env : Env) (video target_lang : string) (fs : gmap string string)
    (draft : string) (e : exn) :
  let r := process_video env (VideoProcessor_init video) target_lang (fresh fs) in
  let h := history (snd r) in
  In (EvChat (translation_request (VStr draft) target_lang) (Raises e))
     (since m_generate_description h) →
  (∃ transcript, fst r = Returns (transcript, VStr draft))
  ∧ calls_to m_save_description h = [[VStr draft]]
  ∧ files (snd r) !! "outputs/description/description.txt" = Some draft.
Proof.
  intros r h. subst h.
  destruct r as [res st'] eqn:Hrun. subst r.
  run_py_in Hrun. pipeline_paths Hrun.
  all: cbn [In]; intros HIn; event_eqs.
  all: repeat match goal with
       | H : translation_request _ _ = translation_request _ _ |- _ =>
           apply translation_request_inj in H
       | H : generation_request _ = translation_request _ _ |- _ =>
           symmetry in H; destruct (translation_is_not_generation _ _ _ H)
       end.
  all: try discriminate.
  all: tidy.
  all: split; [by eexists|]; split; [reflexivity | by read_files].
Qed.

Lemma description_translation_failure_degrades_witness :
  files (snd run_translation_down) !! "outputs/description/description.txt"
  = Some "- Bicycle".
Proof.
  destruct (description_translation_failure_degrades env_translation_down
              "bike.mp4" "de" ∅ "- Bicycle"
              (Exn "APITimeoutError" "Request timed out."))
    as (_ & _ & Hfile).
  - vm_compute. do 3 right. left. reflexivity.
  - exact Hfile.
Defined.

(** X14: With target ["en"] and a detector that answers ["en"] whenever it
    answers, [translate_text] is never entered, and the generation request is
    the only chat request a run can send. *)
Theorem english_run_sends_no_translation
    (env : Env) (video : string) (fs : gmap string string)
    (Hdetect : ∀ n text code, detect env n text = Returns code → code = "en") :
  let h := history (snd (process_video env (VideoProcessor_init video) "en" (fresh fs))) in
  calls_to m_translate_text h = []
  ∧ (length (chat_requests h) ≤ 1)%nat.
Proof.
  intros h. subst h.
  destruct (process_video _ _ _ _) as [res st'] eqn:Hrun.
  run_py_in Hrun. pipeline_paths Hrun.
  all: try (exfalso;
            match goal with
            | H : detect _ _ _ = Returns _ |- _ => pose proof (Hdetect _ _ _ H)
            end; tidy; congruence).
  all: try (exfalso; tidy; congruence).
  all: observe; split; [reflexivity | lia].
Qed.

Lemma english_run_sends_no_translation_witness :
  calls_to m_translate_text (history (snd run_ok_en)) = [].
Proof.
  assert (∀ (n : nat) text code,
             detect env_ok n text = Returns code → code = "en") as Hdetect.
  { by intros n [[|c s]| |] code [= <-]. }
  destruct (english_run_sends_no_translation env_ok "bike.mp4" ∅ Hdetect)
    as (Hnone & _).
  exact Hnone.
Defined.
